(** * Zipline/free_data_zipline_bundles.py: the per-symbol normaliser

    A shallow embedding of [safe_float_to_uint32] and [process_symbol_data]
    together with the observations that [main] makes on the value returned by
    [process_symbol_data] ([len(df)], [df.index]).

    Python floats are IEEE binary64 values; they are represented by
    [spec_float] (sign, mantissa, exponent, with zeros, infinities and NaN),
    and every comparison is the exact one that CPython performs between a
    float and an int. *)

From Stdlib Require Import ZArith List Bool String Lia.
From Stdlib Require Import Sorting.Sorted Floats.SpecFloat.
Import ListNotations.

Local Open Scope Z_scope.

(** ** Numbers *)

Module PyNum.

(** A Python number as [min]/[max] see it: a float or an int.  The type of
    the result of [min(value, M)] depends on which argument is returned. *)
Inductive num : Type :=
| PFloat (f : spec_float)
| PInt (n : Z).

(** [m * 2^e] written as the fraction [fnum / fden] with [fden > 0]. *)
Definition fnum (s : bool) (m : positive) (e : Z) : Z :=
  (if s then - Z.pos m else Z.pos m) * 2 ^ Z.max e 0.

Definition fden (e : Z) : Z := 2 ^ Z.max (- e) 0.

(** Exact three-way comparison of a float with an int, as in CPython's
    [float_richcompare]; [None] when the float is NaN (every ordered
    comparison with NaN is false). *)
Definition cmp_float_int (f : spec_float) (n : Z) : option comparison :=
  match f with
  | S754_nan => None
  | S754_zero _ => Some (0 ?= n)
  | S754_infinity true => Some Lt
  | S754_infinity false => Some Gt
  | S754_finite s m e => Some (fnum s m e ?= n * fden e)
  end.

(** [a < b] *)
Definition lt (a b : num) : bool :=
  match a, b with
  | PInt x, PInt y => x <? y
  | PFloat f, PInt y =>
      match cmp_float_int f y with Some Lt => true | _ => false end
  | PInt x, PFloat f =>
      match cmp_float_int f x with Some Gt => true | _ => false end
  | PFloat f, PFloat g =>
      match SFcompare f g with Some Lt => true | _ => false end
  end.

(** [a > b] *)
Definition gt (a b : num) : bool := lt b a.

(** The builtin [min(a, b)]: the first argument is kept unless the second
    is strictly smaller. *)
Definition min (a b : num) : num := if lt b a then b else a.

(** The builtin [max(a, b)]: the first argument is kept unless the second
    is strictly greater. *)
Definition max (a b : num) : num := if gt b a then b else a.

End PyNum.

Module Np.

Import PyNum.

(** [np.iinfo(np.uint32).max] *)
Definition uint32_max : Z := 4294967295.

Definition in_uint32 (z : Z) : bool := (0 <=? z) && (z <=? uint32_max).

(** Conversion of a double to an integer discards the fraction. *)
Definition trunc (s : bool) (m : positive) (e : Z) : Z :=
  Z.quot (fnum s m e) (fden e).

(** [np.uint32(x)].  An int outside the range is an [OverflowError]; the
    conversion of a float is the C cast, which is defined only when the
    truncated value is representable (so not for NaN and infinities).
    [None] stands for every case in which no uint32 is produced. *)
Definition uint32 (x : num) : option Z :=
  match x with
  | PInt n => if in_uint32 n then Some n else None
  | PFloat (S754_zero _) => Some 0
  | PFloat (S754_finite s m e) =>
      let t := trunc s m e in
      if in_uint32 t then Some t else None
  | PFloat _ => None
  end.

End Np.

(** [safe_float_to_uint32(value)], lines 22-24. *)
Definition safe_float_to_uint32 (value : PyNum.num) : option Z :=
  Np.uint32 (PyNum.max (PyNum.PInt 0) (PyNum.min value (PyNum.PInt Np.uint32_max))).

(** ** Data *)

(** A [pd.Timestamp] of a daily series, as the proleptic ordinal of its day;
    only equality and order of dates are ever used. *)
Definition Timestamp : Type := Z.

(** One row of the frame handed to [process_symbol_data]: the date index and
    the six columns of the download ([open], [high], [low], [close],
    [adj_close], [volume]); NaN marks a missing value. *)
Record RawPriceRow : Type := mkRaw {
  raw_date : Timestamp;
  raw_open : spec_float;
  raw_high : spec_float;
  raw_low : spec_float;
  raw_close : spec_float;
  raw_adj_close : spec_float;
  raw_volume : spec_float
}.

Definition DataFrame : Type := list RawPriceRow.

(** One row of the frame that [main] writes with [to_csv]. *)
Record NormalizedRow : Type := mkRow {
  date : Timestamp;
  open : Z;
  high : Z;
  low : Z;
  close : Z;
  volume : Z;
  dividend : spec_float;
  split : spec_float
}.

(** What a call of [process_symbol_data] can hand back to [main]. *)
Inductive PyValue : Type :=
| PyNone
| PyFrame (rows : list NormalizedRow).

Inductive PyExc : Type :=
| TypeError
| AttributeError
| OverflowError
| UserError (name : string).

Definition EmptyInputError : PyExc := UserError "EmptyInputError".

Inductive Outcome (A : Type) : Type :=
| Returned (a : A)
| Raised (e : PyExc).

Arguments Returned {A} a.
Arguments Raised {A} e.

(** ** Effects *)

(** What [main] writes to the terminal for one symbol (lines 87-95). *)
Inductive Event : Type :=
| PrintSymbol (symbol : string)
| PrintDateRange (lo hi : option Timestamp)
| PrintRows (n : nat)
| PrintUnique (n : nat)
| PrintHead (rows : list NormalizedRow)
| PrintSaved (path : string).

(** Everything outside the arguments that the script can read or change:
    the clock behind [datetime.now()], the terminal and the CSV directory. *)
Record World : Type := mkWorld {
  now : Z;
  stdout : list Event;
  csv_files : list (string * list NormalizedRow)
}.

Definition Py (A : Type) : Type := World -> Outcome A * World.

Definition ret {A : Type} (a : A) : Py A := fun w => (Returned a, w).

Definition raise {A : Type} (e : PyExc) : Py A := fun w => (Raised e, w).

Definition bind {A B : Type} (c : Py A) (k : A -> Py B) : Py B :=
  fun w =>
    match c w with
    | (Returned a, w') => k a w'
    | (Raised e, w') => (Raised e, w')
    end.

Declare Scope py_scope.
Delimit Scope py_scope with py.
Notation "x <- c ;; k" := (bind c (fun x => k))
  (at level 61, c at next level, right associativity) : py_scope.
Notation "c ;; k" := (bind c (fun _ => k))
  (at level 61, right associativity) : py_scope.

Definition print (e : Event) : Py unit :=
  fun w => (Returned tt, mkWorld (now w) (stdout w ++ [e]) (csv_files w)).

(** ** The normaliser *)

(** [process_symbol_data(df, trading_days, missing_dates)], lines 27-54.
    The body is the docstring alone; control falls off the end of the
    function, so the call evaluates to [None] and touches nothing. *)
Definition process_symbol_data
    (df : DataFrame) (trading_days missing_dates : list Timestamp) : Py PyValue :=
  ret PyNone.

(** ** What [main] does with the result (lines 86-95) *)

(** [df.index] *)
Definition py_index (df : PyValue) : Py (list Timestamp) :=
  match df with
  | PyNone => raise AttributeError
  | PyFrame rows => ret (map date rows)
  end.

(** [len(df)] *)
Definition py_len (df : PyValue) : Py nat :=
  match df with
  | PyNone => raise TypeError
  | PyFrame rows => ret (List.length rows)
  end.

(** [df.head()] *)
Definition py_head (df : PyValue) : Py (list NormalizedRow) :=
  match df with
  | PyNone => raise AttributeError
  | PyFrame rows => ret (firstn 5 rows)
  end.

(** [df.to_csv(path)] *)
Definition to_csv (df : PyValue) (path : string) : Py unit :=
  match df with
  | PyNone => raise AttributeError
  | PyFrame rows =>
      fun w => (Returned tt, mkWorld (now w) (stdout w) ((path, rows) :: csv_files w))
  end.

(** [Index.min()] and [Index.max()]; nothing for an empty index. *)
Definition index_min (idx : list Timestamp) : option Timestamp :=
  match idx with
  | [] => None
  | d :: ds => Some (fold_left Z.min ds d)
  end.

Definition index_max (idx : list Timestamp) : option Timestamp :=
  match idx with
  | [] => None
  | d :: ds => Some (fold_left Z.max ds d)
  end.

(** [os.path.join(base_dir, f'{symbol}.csv')] *)
Definition csv_file_path (symbol : string) : string :=
  ("~/.zipline/custom_data/daily/" ++ symbol ++ ".csv")%string.

Local Open Scope py_scope.

(** The body of the loop over the symbols, for a symbol that is a column of
    the download. *)
Definition main_symbol (symbol : string) (raw : DataFrame)
    (trading_days missing_dates : list Timestamp) : Py unit :=
  df <- process_symbol_data raw trading_days missing_dates ;;
  print (PrintSymbol symbol) ;;
  idx <- py_index df ;;
  print (PrintDateRange (index_min idx) (index_max idx)) ;;
  n <- py_len df ;;
  print (PrintRows n) ;;
  print (PrintUnique (List.length (nodup Z.eq_dec idx))) ;;
  h <- py_head df ;;
  print (PrintHead h) ;;
  to_csv df (csv_file_path symbol) ;;
  print (PrintSaved (csv_file_path symbol)).

Local Close Scope py_scope.

(** ** The documented cleaning step *)

Definition is_nan (f : spec_float) : bool :=
  match f with S754_nan => true | _ => false end.

(** A row with a missing value, in the docstring's words (line 40: "It then
    drops any rows with missing values"). *)
Definition has_missing (r : RawPriceRow) : bool :=
  is_nan (raw_open r) || is_nan (raw_high r) || is_nan (raw_low r)
  || is_nan (raw_close r) || is_nan (raw_adj_close r) || is_nan (raw_volume r).

Definition dropna (df : DataFrame) : DataFrame :=
  filter (fun r => negb (has_missing r)) df.

(** ** The contract of the normaliser, as predicates on an outcome *)

Section Contract.

Variable out : Outcome PyValue.

(** The call produced a frame with these rows. *)
Definition Frame (rows : list NormalizedRow) : Prop :=
  out = Returned (PyFrame rows).

(** Density: one row per calendar day, the same set of dates, no date
    twice, dates strictly ascending. *)
Definition Density (cal : list Timestamp) : Prop :=
  exists rows,
    Frame rows
    /\ List.length rows = List.length cal
    /\ (forall d, In d (map date rows) <-> In d cal)
    /\ NoDup (map date rows)
    /\ StronglySorted Z.lt (map date rows).

(** The output has a row for day [d] on which [P] holds. *)
Definition HasRow (d : Timestamp) (P : NormalizedRow -> Prop) : Prop :=
  exists rows r, Frame rows /\ In r rows /\ date r = d /\ P r.

Definition same_bar (r r' : NormalizedRow) : Prop :=
  open r' = open r /\ high r' = high r /\ low r' = low r
  /\ close r' = close r /\ volume r' = volume r.

(** Day [d] repeats the bar of day [d_prev], with no dividend and an
    identity split. *)
Definition FilledFrom (d_prev d : Timestamp) : Prop :=
  exists rows r r',
    Frame rows /\ In r rows /\ In r' rows
    /\ date r = d_prev /\ date r' = d
    /\ same_bar r r'
    /\ dividend r' = S754_zero false
    /\ split r' = binary_normalize 53 1024 1 0 false.

(** Day [d] carries the whole row of day [d_prev]. *)
Definition CopiedFrom (d_prev d : Timestamp) : Prop :=
  exists rows r r',
    Frame rows /\ In r rows /\ In r' rows
    /\ date r = d_prev /\ date r' = d
    /\ same_bar r r'
    /\ dividend r' = dividend r /\ split r' = split r.

End Contract.

(** ** Sample inputs *)

(** The binary64 float of an integer literal. *)
Definition float_of_Z (z : Z) : spec_float := binary_normalize 53 1024 z 0 false.

Definition d_2020_01_02 : Timestamp := 737426.
Definition d_2020_01_03 : Timestamp := 737427.

(** The row of the scenario: open 10, high 11, low 9, close 10,
    adj_close 10, volume 1000. *)
Definition row_scenario : RawPriceRow :=
  mkRaw d_2020_01_02 (float_of_Z 10) (float_of_Z 11) (float_of_Z 9)
        (float_of_Z 10) (float_of_Z 10) (float_of_Z 1000).

(** open 110, high 115, low 95, close 100, adj_close 90. *)
Definition row_adjust : RawPriceRow :=
  mkRaw d_2020_01_02 (float_of_Z 110) (float_of_Z 115) (float_of_Z 95)
        (float_of_Z 100) (float_of_Z 90) (float_of_Z 1000).


Definition row_all_nan : RawPriceRow :=
  mkRaw d_2020_01_02 S754_nan S754_nan S754_nan S754_nan S754_nan S754_nan.

Definition w0 : World := mkWorld 0 [] [].

(** ** The value of a number *)

(** The mathematical value of a Python number other than NaN: minus
    infinity, the fraction [n / d] with [d > 0], or plus infinity. *)
Inductive xval : Type :=
| XNegInf
| XFin (n d : Z)
| XPosInf.

Definition val (x : PyNum.num) : option xval :=
  match x with
  | PyNum.PInt n => Some (XFin n 1)
  | PyNum.PFloat (S754_zero _) => Some (XFin 0 1)
  | PyNum.PFloat (S754_infinity true) => Some XNegInf
  | PyNum.PFloat (S754_infinity false) => Some XPosInf
  | PyNum.PFloat S754_nan => None
  | PyNum.PFloat (S754_finite s m e) => Some (XFin (PyNum.fnum s m e) (PyNum.fden e))
  end.

(** The order of values, fractions compared by cross multiplication. *)
Definition xle (u v : xval) : Prop :=
  match u, v with
  | XNegInf, _ => True
  | _, XPosInf => True
  | XFin n d, XFin n' d' => n * d' <= n' * d
  | _, _ => False
  end.

(** The value clamped to [0, 2^32 - 1] after its fraction is dropped. *)
Definition sat (v : xval) : Z :=
  match v with
  | XNegInf => 0
  | XFin n d => Z.max 0 (Z.min (n / d) Np.uint32_max)
  | XPosInf => Np.uint32_max
  end.

(** ** The calendar and the loop of [main] *)

(** [pd.date_range(start=start_session, end=end_session, freq='D')]: every
    day from the first to the last, both included; no day when the last
    precedes the first. *)
Fixpoint days_from (start : Timestamp) (n : nat) : list Timestamp :=
  match n with
  | O => []
  | S k => start :: days_from (start + 1) k
  end.

Definition date_range (start_session end_session : Timestamp) : list Timestamp :=
  days_from start_session (Z.to_nat (end_session - start_session + 1)).

(** [trading_days = [day for day in all_days if calendar.is_session(day)]],
    lines 74-75; the calendar is the exchange-calendar library's. *)
Definition trading_days_of (is_session : Timestamp -> bool)
    (start_session end_session : Timestamp) : list Timestamp :=
  filter is_session (date_range start_session end_session).

(** The symbols of line 58. *)
Definition symbols : list string :=
  ["AAPL"; "NFLX"; "NVDA"; "JPM"; "SPY";
   "GC=F"; "SI=F"; "CL=F"; "ZW=F"; "PL=F"; "ZC=F"; "ZS=F"; "KC=F";
   "CC=F"; "^GDAXI"; "^GSPC"]%string.

(** The download, grouped by ticker: the first level of its columns is the
    ticker, and [stocks_df[symbol]] is that ticker's frame. *)
Definition StocksFrame : Type := list (string * DataFrame).

Fixpoint stocks_get (symbol : string) (stocks_df : StocksFrame) : option DataFrame :=
  match stocks_df with
  | [] => None
  | (s, raw) :: rest => if String.eqb symbol s then Some raw else stocks_get symbol rest
  end.

(** The loop of lines 84-95: a symbol that is no column of the download is
    passed over. *)
Fixpoint main_loop (syms : list string) (stocks_df : StocksFrame)
    (trading_days missing_dates : list Timestamp) : Py unit :=
  match syms with
  | [] => ret tt
  | symbol :: rest =>
      bind
        match stocks_get symbol stocks_df with
        | Some raw => main_symbol symbol raw trading_days missing_dates
        | None => ret tt
        end
        (fun _ => main_loop rest stocks_df trading_days missing_dates)
  end.

(** * Properties *)

(** ** The clamp *)

Section Clamp.

Import PyNum.

Lemma fden_pos (e : Z) : 0 < fden e.
Proof. unfold fden. apply Z.pow_pos_nonneg; lia. Qed.

Lemma trunc_ge (s : bool) (m : positive) (e : Z) (n : Z) :
  0 <= n -> n * fden e <= fnum s m e -> n <= Np.trunc s m e.
Proof.
  intros Hn H. pose proof (fden_pos e) as HD. unfold Np.trunc.
  rewrite Z.quot_div_nonneg by nia.
  apply Z.div_le_lower_bound; lia.
Qed.

Lemma trunc_le (s : bool) (m : positive) (e : Z) (n : Z) :
  0 <= fnum s m e -> fnum s m e <= n * fden e -> Np.trunc s m e <= n.
Proof.
  intros H0 H. pose proof (fden_pos e) as HD. unfold Np.trunc.
  rewrite Z.quot_div_nonneg by lia.
  apply Z.div_le_upper_bound; lia.
Qed.

Lemma trunc_nonpos (s : bool) (m : positive) (e : Z) :
  fnum s m e <= 0 -> Np.trunc s m e <= 0.
Proof.
  intros H. pose proof (fden_pos e) as HD. unfold Np.trunc.
  replace (fnum s m e) with (- - fnum s m e) by lia.
  rewrite Z.quot_opp_l by lia.
  assert (0 <= (- fnum s m e) ÷ fden e) by (apply Z.quot_pos; lia).
  lia.
Qed.

(** On a finite float the chain of [min], [max] and [np.uint32] is the
    arithmetic clamp of the truncated value. *)
Lemma safe_float_to_uint32_finite (s : bool) (m : positive) (e : Z) :
  safe_float_to_uint32 (PFloat (S754_finite s m e))
  = Some (Z.max 0 (Z.min (Np.trunc s m e) Np.uint32_max)).
Proof.
  unfold safe_float_to_uint32, min, max, gt, lt; cbn [cmp_float_int].
  destruct (Z.compare_spec (fnum s m e) (Np.uint32_max * fden e)) as [H|H|H].
  - (* value = M *)
    pose proof (fden_pos e) as HD.
    assert (Hpos : 0 < fnum s m e) by (unfold Np.uint32_max in *; lia).
    cbn [cmp_float_int]. rewrite Z.mul_0_l.
    destruct (Z.compare_spec (fnum s m e) 0); try lia.
    cbn [Np.uint32].
    assert (Np.trunc s m e = Np.uint32_max).
    { apply Z.le_antisymm; [apply trunc_le | apply trunc_ge];
        unfold Np.uint32_max in *; lia. }
    rewrite H1. reflexivity.
  - (* value < M *)
    cbn [cmp_float_int]. rewrite Z.mul_0_l.
    destruct (Z.compare_spec (fnum s m e) 0) as [H0|H0|H0].
    + cbn. pose proof (trunc_nonpos s m e). unfold Np.uint32_max. f_equal. lia.
    + cbn. pose proof (trunc_nonpos s m e). unfold Np.uint32_max. f_equal. lia.
    + cbn [Np.uint32].
      assert (0 <= Np.trunc s m e) by (apply trunc_ge; lia).
      assert (Np.trunc s m e <= Np.uint32_max) by (apply trunc_le; lia).
      unfold Np.in_uint32.
      replace (0 <=? Np.trunc s m e) with true by (symmetry; apply Z.leb_le; lia).
      replace (Np.trunc s m e <=? Np.uint32_max) with true
        by (symmetry; apply Z.leb_le; lia).
      cbn. f_equal. lia.
  - (* M < value *)
    cbn.
    assert (Np.uint32_max <= Np.trunc s m e)
      by (apply trunc_ge; unfold Np.uint32_max in *; lia).
    f_equal. unfold Np.uint32_max in *. lia.
Qed.

Lemma safe_float_to_uint32_nan :
  max (PInt 0) (min (PFloat S754_nan) (PInt Np.uint32_max)) = PInt 0
  /\ safe_float_to_uint32 (PFloat S754_nan) = Some 0.
Proof. split; reflexivity. Qed.

End Clamp.

(** C10: [safe_float_to_uint32] is total on floats and its result lies in
    [0, 2^32 - 1].  The value is [np.uint32(max(0, min(value, 2^32 - 1)))];
    on a finite float this is the truncated value clamped to the range, and
    on NaN the [min]/[max] chain yields the int [0], so the result is [0]. *)
Theorem safe_float_to_uint32_total_in_range :
  (forall f : spec_float,
      safe_float_to_uint32 (PyNum.PFloat f)
      = Np.uint32 (PyNum.max (PyNum.PInt 0)
                             (PyNum.min (PyNum.PFloat f) (PyNum.PInt (2 ^ 32 - 1))))
      /\ exists z : Z,
           safe_float_to_uint32 (PyNum.PFloat f) = Some z /\ 0 <= z <= 2 ^ 32 - 1)
  /\ (forall (s : bool) (m : positive) (e : Z),
        safe_float_to_uint32 (PyNum.PFloat (S754_finite s m e))
        = Some (Z.max 0 (Z.min (Np.trunc s m e) (2 ^ 32 - 1))))
  /\ PyNum.max (PyNum.PInt 0)
               (PyNum.min (PyNum.PFloat S754_nan) (PyNum.PInt (2 ^ 32 - 1)))
     = PyNum.PInt 0
  /\ safe_float_to_uint32 (PyNum.PFloat S754_nan) = Some 0.
Proof.
  change (2 ^ 32 - 1) with Np.uint32_max.
  split; [|split; [exact safe_float_to_uint32_finite | exact safe_float_to_uint32_nan]].
  intros f. split; [reflexivity|].
  destruct f as [s|s| |s m e].
  - exists 0. destruct s; split; try reflexivity; unfold Np.uint32_max; lia.
  - destruct s; [exists 0 | exists Np.uint32_max];
      split; try reflexivity; unfold Np.uint32_max; lia.
  - exists 0. split; [reflexivity | unfold Np.uint32_max; lia].
  - rewrite safe_float_to_uint32_finite.
    eexists; split; [reflexivity|]. unfold Np.uint32_max. lia.
Qed.

(** ** The normaliser *)

Section Normaliser.

Variables (df : DataFrame) (trading_days missing_dates : list Timestamp).
Variable w : World.

Lemma process_symbol_data_None :
  process_symbol_data df trading_days missing_dates w = (Returned PyNone, w).
Proof. reflexivity. Qed.

Lemma process_symbol_data_no_Frame (rows : list NormalizedRow) :
  ~ Frame (fst (process_symbol_data df trading_days missing_dates w)) rows.
Proof. unfold Frame. rewrite process_symbol_data_None. discriminate. Qed.

Lemma process_symbol_data_no_row (d : Timestamp) (P : NormalizedRow -> Prop) :
  ~ HasRow (fst (process_symbol_data df trading_days missing_dates w)) d P.
Proof.
  intros (rows & r & HF & _). exact (process_symbol_data_no_Frame rows HF).
Qed.

(** The caller prints the symbol and then fails on [df.index]: nothing is
    reported about the rows and no CSV file is written. *)
Lemma main_symbol_raises (symbol : string) :
  main_symbol symbol df trading_days missing_dates w
  = (Raised AttributeError,
     mkWorld (now w) (stdout w ++ [PrintSymbol symbol]) (csv_files w)).
Proof. reflexivity. Qed.

End Normaliser.

(** C9: for every input [process_symbol_data] returns [None]; its body is
    the docstring alone, so no sequence of normalised rows is ever built. *)
Theorem process_symbol_data_returns_None :
  forall (df : DataFrame) (trading_days missing_dates : list Timestamp) (w : World),
    process_symbol_data df trading_days missing_dates w = (Returned PyNone, w)
    /\ forall rows : list NormalizedRow,
        fst (process_symbol_data df trading_days missing_dates w)
        <> Returned (PyFrame rows).
Proof.
  intros df td md w. split.
  - apply process_symbol_data_None.
  - intros rows. exact (process_symbol_data_no_Frame df td md w rows).
Qed.

(** C8: [process_symbol_data] is deterministic and free of side effects: on
    the same arguments the result is the same whatever the clock, the
    terminal and the files hold, and the call leaves all of them as they
    were. *)
Theorem process_symbol_data_deterministic :
  forall (df : DataFrame) (trading_days missing_dates : list Timestamp)
         (w1 w2 : World),
    fst (process_symbol_data df trading_days missing_dates w1)
    = fst (process_symbol_data df trading_days missing_dates w2)
    /\ snd (process_symbol_data df trading_days missing_dates w1) = w1
    /\ snd (process_symbol_data df trading_days missing_dates w2) = w2.
Proof.
  intros df td md w1 w2.
  rewrite (process_symbol_data_None df td md w1).
  rewrite (process_symbol_data_None df td md w2).
  repeat split.
Qed.

(** C1 (density) fails on the code: for the one-row scenario frame and a
    calendar of two days the call returns [None], which is no frame at all,
    so it has neither two rows nor the calendar's dates; [len] of the result
    is a [TypeError] and the caller stops with an [AttributeError]. *)
Theorem process_symbol_data_not_dense :
  process_symbol_data [row_scenario] [d_2020_01_02; d_2020_01_03] [] w0
  = (Returned PyNone, w0)
  /\ ~ Density
        (fst (process_symbol_data [row_scenario] [d_2020_01_02; d_2020_01_03] [] w0))
        [d_2020_01_02; d_2020_01_03]
  /\ bind (process_symbol_data [row_scenario] [d_2020_01_02; d_2020_01_03] [])
          py_len w0
     = (Raised TypeError, w0)
  /\ fst (main_symbol "AAPL" [row_scenario] [d_2020_01_02; d_2020_01_03] [] w0)
     = Raised AttributeError.
Proof.
  split; [reflexivity|]. split; [|split; reflexivity].
  intros (rows & HF & _).
  exact (process_symbol_data_no_Frame _ _ _ _ rows HF).
Qed.

(** C2 as stated is false: a frame whose only row is all NaN is empty after
    cleaning, yet the call does not raise [EmptyInputError]. *)
Lemma process_symbol_data_no_EmptyInputError :
  dropna [row_all_nan] = []
  /\ fst (process_symbol_data [row_all_nan] [d_2020_01_02] [] w0)
     <> Raised EmptyInputError
  /\ fst (process_symbol_data [] [d_2020_01_02] [] w0) <> Raised EmptyInputError.
Proof. repeat split; discriminate. Qed.

(** C2, amended: [process_symbol_data] does not raise [EmptyInputError],
    on the empty frame and on a frame of all-NaN rows as on any other: the
    program defines no such error and the function documents no error
    path.  What the call yields instead is not part of this statement. *)
Theorem process_symbol_data_never_EmptyInputError :
  forall (df : DataFrame) (trading_days missing_dates : list Timestamp) (w : World),
    fst (process_symbol_data df trading_days missing_dates w)
    <> Raised EmptyInputError.
Proof.
  intros df td md w. rewrite process_symbol_data_None. discriminate.
Qed.

(** ** The documented steps, at inputs that exercise them *)

(** C3 (price adjustment) fails on the code: for the row with close 100,
    adj_close 90, open 110, high 115, low 95 the adjusted open and close are
    99 and 90, whole numbers that rounding leaves alone; the call returns
    [None], so the output has no row for that day at all. *)
Theorem process_symbol_data_not_adjusted :
  process_symbol_data [row_adjust] [d_2020_01_02] [] w0 = (Returned PyNone, w0)
  /\ ~ HasRow (fst (process_symbol_data [row_adjust] [d_2020_01_02] [] w0))
        d_2020_01_02
        (fun r => open r = 99 /\ close r = 90).
Proof.
  split; [reflexivity | apply process_symbol_data_no_row].
Qed.

(** C5 (forward fill) fails on the code: with a raw row for 2020-01-02 only
    and a calendar of 2020-01-02 and 2020-01-03, the second day should
    repeat the bar of the first with dividend 0.0 and split 1.0; the call
    returns [None]. *)
Theorem process_symbol_data_not_forward_filled :
  process_symbol_data [row_scenario] [d_2020_01_02; d_2020_01_03] [] w0
  = (Returned PyNone, w0)
  /\ ~ FilledFrom
        (fst (process_symbol_data [row_scenario] [d_2020_01_02; d_2020_01_03] [] w0))
        d_2020_01_02 d_2020_01_03.
Proof.
  split; [reflexivity|].
  intros (rows & r & r' & HF & _).
  exact (process_symbol_data_no_Frame _ _ _ _ rows HF).
Qed.

(** C6 (anomaly patch) fails on the code: with 2020-01-03 listed in
    [missing_dates] and no raw row for it, that day should carry the whole
    row of 2020-01-02; the call returns [None] and never reads
    [missing_dates]. *)
Theorem process_symbol_data_not_patched :
  process_symbol_data [row_scenario] [d_2020_01_02; d_2020_01_03] [d_2020_01_03] w0
  = (Returned PyNone, w0)
  /\ ~ CopiedFrom
        (fst (process_symbol_data [row_scenario] [d_2020_01_02; d_2020_01_03]
                                  [d_2020_01_03] w0))
        d_2020_01_02 d_2020_01_03.
Proof.
  split; [reflexivity|].
  intros (rows & r & r' & HF & _).
  exact (process_symbol_data_no_Frame _ _ _ _ rows HF).
Qed.



(** ** The clamp on every number *)

Section ClampValues.

Import PyNum.

Lemma safe_float_to_uint32_int (n : Z) :
  safe_float_to_uint32 (PInt n) = Some (Z.max 0 (Z.min n Np.uint32_max)).
Proof.
  unfold safe_float_to_uint32, min, max, gt, lt, Np.uint32, Np.in_uint32.
  destruct (Z.ltb_spec Np.uint32_max n) as [Hn|Hn].
  - cbn. f_equal. unfold Np.uint32_max in *. lia.
  - destruct (Z.ltb_spec 0 n) as [H0|H0].
    + replace (0 <=? n) with true by (symmetry; apply Z.leb_le; lia).
      replace (n <=? Np.uint32_max) with true by (symmetry; apply Z.leb_le; lia).
      cbn. f_equal. lia.
    + cbn. f_equal. unfold Np.uint32_max in *. lia.
Qed.

Lemma clamp_quot_div (n d : Z) :
  0 < d ->
  Z.max 0 (Z.min (n ÷ d) Np.uint32_max) = Z.max 0 (Z.min (n / d) Np.uint32_max).
Proof.
  intros Hd. destruct (Z.le_gt_cases 0 n) as [Hn|Hn].
  - rewrite Z.quot_div_nonneg by lia. reflexivity.
  - assert (n / d < 0) by (apply Z.div_lt_upper_bound; lia).
    assert (n ÷ d <= 0).
    { replace n with (- - n) by lia. rewrite Z.quot_opp_l by lia.
      assert (0 <= (- n) ÷ d) by (apply Z.quot_pos; lia). lia. }
    unfold Np.uint32_max. lia.
Qed.

(** Whatever the number, as long as it is not NaN, the result is its value
    brought into the range. *)
Lemma safe_float_to_uint32_sat (x : num) (v : xval) :
  val x = Some v -> safe_float_to_uint32 x = Some (sat v).
Proof.
  destruct x as [f|n]; cbn [val].
  - destruct f as [s|s| |s m e]; try discriminate.
    + intros [= <-]. destruct s; reflexivity.
    + destruct s; intros [= <-]; reflexivity.
    + intros [= <-]. rewrite safe_float_to_uint32_finite. cbn [sat].
      f_equal. unfold Np.trunc. apply clamp_quot_div, fden_pos.
  - intros [= <-]. rewrite safe_float_to_uint32_int. cbn [sat].
    rewrite Z.div_1_r. reflexivity.
Qed.

Lemma val_den_pos (x : num) (n d : Z) : val x = Some (XFin n d) -> 0 < d.
Proof.
  destruct x as [f|k]; cbn [val].
  - destruct f as [s|s| |s m e]; try discriminate.
    + intros [= _ <-]. lia.
    + destruct s; discriminate.
    + intros [= _ <-]. apply fden_pos.
  - intros [= _ <-]. lia.
Qed.

Lemma sat_range (v : xval) : 0 <= sat v <= Np.uint32_max.
Proof. destruct v; cbn [sat]; unfold Np.uint32_max; lia. Qed.

Lemma div_le_cross (n d n' d' : Z) :
  0 < d -> 0 < d' -> n * d' <= n' * d -> n / d <= n' / d'.
Proof.
  intros Hd Hd' H.
  rewrite <- (Z.div_mul_cancel_r n d d') by lia.
  rewrite <- (Z.div_mul_cancel_r n' d' d) by lia.
  rewrite (Z.mul_comm d' d).
  apply Z.div_le_mono; nia.
Qed.

(** Every call yields a value of the range, for ints as for floats. *)
Lemma safe_float_to_uint32_range (x : num) (z : Z) :
  safe_float_to_uint32 x = Some z -> 0 <= z <= Np.uint32_max.
Proof.
  destruct (val x) as [v|] eqn:Hv.
  - rewrite (safe_float_to_uint32_sat x v Hv). intros [= <-]. apply sat_range.
  - destruct x as [f|n]; [|discriminate].
    destruct f as [s|s| |s m e]; try discriminate; [destruct s; discriminate|].
    intros [= <-]. unfold Np.uint32_max. lia.
Qed.

End ClampValues.

(** X1: on a Python int [safe_float_to_uint32] never fails and returns the
    int clamped to [0, 2^32 - 1]: negative ints give 0, ints above the
    range give 2^32 - 1, ints of the range are returned unchanged. *)
Theorem safe_float_to_uint32_of_int :
  forall n : Z,
    safe_float_to_uint32 (PyNum.PInt n) = Some (Z.max 0 (Z.min n (2 ^ 32 - 1))).
Proof.
  intros n. change (2 ^ 32 - 1) with Np.uint32_max.
  apply safe_float_to_uint32_int.
Qed.

(** X2: a finite float whose value is a whole number [n] of the range is
    converted without loss: the result is exactly [n]. *)
Theorem safe_float_to_uint32_whole :
  forall (s : bool) (m : positive) (e : Z) (n : Z),
    PyNum.fnum s m e = n * PyNum.fden e ->
    0 <= n <= 2 ^ 32 - 1 ->
    safe_float_to_uint32 (PyNum.PFloat (S754_finite s m e)) = Some n.
Proof.
  intros s m e n Hv Hn.
  rewrite safe_float_to_uint32_finite. unfold Np.trunc.
  pose proof (fden_pos e) as HD.
  rewrite Hv, Z.quot_mul by lia.
  f_equal. unfold Np.uint32_max. lia.
Qed.

Lemma safe_float_to_uint32_whole_witness :
  PyNum.fnum false 5629499534213120 (-49) = 10 * PyNum.fden (-49)
  /\ 0 <= 10 <= 2 ^ 32 - 1
  /\ safe_float_to_uint32 (PyNum.PFloat (float_of_Z 10)) = Some 10.
Proof.
  split; [reflexivity|]. split; [lia|].
  apply (safe_float_to_uint32_whole false 5629499534213120 (-49) 10);
    [reflexivity | lia].
Defined.

(** X3: a finite float between 0 and 2^32 - 1 is truncated, not rounded: the
    result [z] is the whole number with [z <= value < z + 1]. *)
Theorem safe_float_to_uint32_floor :
  forall (s : bool) (m : positive) (e : Z),
    0 <= PyNum.fnum s m e ->
    PyNum.fnum s m e <= (2 ^ 32 - 1) * PyNum.fden e ->
    exists z : Z,
      safe_float_to_uint32 (PyNum.PFloat (S754_finite s m e)) = Some z
      /\ z * PyNum.fden e <= PyNum.fnum s m e < (z + 1) * PyNum.fden e.
Proof.
  intros s m e H0 HM.
  pose proof (fden_pos e) as HD.
  exists (PyNum.fnum s m e / PyNum.fden e). split.
  - rewrite safe_float_to_uint32_finite. unfold Np.trunc.
    rewrite Z.quot_div_nonneg by lia. f_equal.
    assert (0 <= PyNum.fnum s m e / PyNum.fden e) by (apply Z.div_pos; lia).
    assert (PyNum.fnum s m e / PyNum.fden e <= 2 ^ 32 - 1)
      by (apply Z.div_le_upper_bound; lia).
    unfold Np.uint32_max. lia.
  - pose proof (Z.mul_div_le (PyNum.fnum s m e) (PyNum.fden e) HD).
    pose proof (Z.mul_succ_div_gt (PyNum.fnum s m e) (PyNum.fden e) HD).
    lia.
Qed.

Lemma safe_float_to_uint32_floor_witness :
  exists z : Z,
    safe_float_to_uint32 (PyNum.PFloat (S754_finite false 15 (-2))) = Some z
    /\ z * PyNum.fden (-2) <= PyNum.fnum false 15 (-2) < (z + 1) * PyNum.fden (-2).
Proof.
  apply (safe_float_to_uint32_floor false 15 (-2)); vm_compute; discriminate.
Defined.

(** X4: [safe_float_to_uint32] is monotone: of two numbers that are not NaN
    (ints, finite floats, zeros or infinities, in any mix) the one with the
    smaller value never gets the larger result. *)
Theorem safe_float_to_uint32_monotone :
  forall (a b : PyNum.num) (u v : xval),
    val a = Some u -> val b = Some v -> xle u v ->
    exists za zb : Z,
      safe_float_to_uint32 a = Some za
      /\ safe_float_to_uint32 b = Some zb
      /\ za <= zb.
Proof.
  intros a b u v Ha Hb Hle.
  exists (sat u), (sat v).
  split; [exact (safe_float_to_uint32_sat a u Ha)|].
  split; [exact (safe_float_to_uint32_sat b v Hb)|].
  pose proof (sat_range u) as Ru. pose proof (sat_range v) as Rv.
  destruct u as [|n d|], v as [|n' d'|]; cbn [xle] in Hle; cbn [sat] in *;
    try contradiction; try lia.
  assert (n / d <= n' / d').
  { apply div_le_cross;
      [exact (val_den_pos a n d Ha) | exact (val_den_pos b n' d' Hb) | exact Hle]. }
  lia.
Qed.

Lemma safe_float_to_uint32_monotone_witness :
  exists za zb : Z,
    safe_float_to_uint32 (PyNum.PFloat (S754_finite false 15 (-2))) = Some za
    /\ safe_float_to_uint32 (PyNum.PInt 7) = Some zb
    /\ za <= zb.
Proof.
  apply (safe_float_to_uint32_monotone
           (PyNum.PFloat (S754_finite false 15 (-2))) (PyNum.PInt 7)
           (XFin 15 4) (XFin 7 1));
    [reflexivity | reflexivity | cbn; lia].
Defined.

(** X5: [safe_float_to_uint32] is idempotent: a value it has produced is
    returned unchanged when it is passed in again. *)
Theorem safe_float_to_uint32_idempotent :
  forall (x : PyNum.num) (z : Z),
    safe_float_to_uint32 x = Some z ->
    safe_float_to_uint32 (PyNum.PInt z) = Some z.
Proof.
  intros x z Hx.
  pose proof (safe_float_to_uint32_range x z Hx) as Hz.
  rewrite safe_float_to_uint32_int. f_equal. lia.
Qed.

Lemma safe_float_to_uint32_idempotent_witness :
  safe_float_to_uint32 (PyNum.PInt 4294967295) = Some 4294967295.
Proof.
  apply (safe_float_to_uint32_idempotent (PyNum.PFloat (float_of_Z 5000000000))).
  reflexivity.
Defined.

(** ** The trading days *)

Section Calendar.

Variable is_session : Timestamp -> bool.

Lemma In_days_from (n : nat) :
  forall (start d : Timestamp),
    In d (days_from start n) <-> start <= d < start + Z.of_nat n.
Proof.
  induction n as [|k IH]; intros start d; cbn [days_from In].
  - lia.
  - rewrite IH. lia.
Qed.

Lemma days_from_sorted (n : nat) :
  forall start : Timestamp, StronglySorted Z.lt (days_from start n).
Proof.
  induction n as [|k IH]; intros start; cbn [days_from]; constructor.
  - apply IH.
  - apply Forall_forall. intros d Hd. apply In_days_from in Hd. lia.
Qed.

Lemma filter_sorted (l : list Timestamp) :
  StronglySorted Z.lt l -> StronglySorted Z.lt (filter is_session l).
Proof.
  induction 1 as [|d l Hs IH Hd]; cbn [filter]; [constructor|].
  destruct (is_session d); [|exact IH].
  constructor; [exact IH|].
  apply Forall_forall. intros x Hx. apply filter_In in Hx.
  rewrite Forall_forall in Hd. apply Hd, Hx.
Qed.

Lemma sorted_NoDup (l : list Timestamp) : StronglySorted Z.lt l -> NoDup l.
Proof.
  induction 1 as [|d l Hs IH Hd]; constructor; [|exact IH].
  intros Hin. rewrite Forall_forall in Hd. specialize (Hd d Hin). lia.
Qed.

Lemma days_from_length (n : nat) (start : Timestamp) :
  List.length (days_from start n) = n.
Proof. revert start. induction n as [|k IH]; intros; cbn; [|rewrite IH]; reflexivity. Qed.

End Calendar.

(** X6: the list [trading_days] that [main] builds (lines 74-75) holds
    exactly the days between the first and the last session day, both
    included, that the calendar calls sessions; it is strictly ascending and
    has no day twice. *)
Theorem trading_days_sorted_complete :
  forall (is_session : Timestamp -> bool) (start_session end_session : Timestamp),
    (forall d : Timestamp,
        In d (trading_days_of is_session start_session end_session)
        <-> (start_session <= d <= end_session /\ is_session d = true))
    /\ StronglySorted Z.lt (trading_days_of is_session start_session end_session)
    /\ NoDup (trading_days_of is_session start_session end_session).
Proof.
  intros is_session s e.
  assert (Hs : StronglySorted Z.lt (trading_days_of is_session s e))
    by (apply filter_sorted, days_from_sorted).
  split; [|split; [exact Hs | exact (sorted_NoDup _ Hs)]].
  intros d. unfold trading_days_of, date_range.
  rewrite filter_In, In_days_from. split.
  - intros [[H1 H2] H3]. split; [lia | exact H3].
  - intros [[H1 H2] H3]. split; [lia | exact H3].
Qed.

(** X7: [trading_days] never has more entries than there are days from the
    first to the last session day, and it is empty when the last day
    precedes the first. *)
Theorem trading_days_length :
  forall (is_session : Timestamp -> bool) (start_session end_session : Timestamp),
    Z.of_nat (List.length (trading_days_of is_session start_session end_session))
    <= Z.max 0 (end_session - start_session + 1).
Proof.
  intros is_session s e. unfold trading_days_of, date_range.
  pose proof (filter_length_le is_session
                (days_from s (Z.to_nat (e - s + 1)))) as H.
  rewrite days_from_length in H. lia.
Qed.

(** ** The loop over the symbols *)

Section Loop.

Variable stocks_df : StocksFrame.
Variables trading_days missing_dates : list Timestamp.

Lemma main_loop_cons_absent (symbol : string) (rest : list string) (w : World) :
  stocks_get symbol stocks_df = None ->
  main_loop (symbol :: rest) stocks_df trading_days missing_dates w
  = main_loop rest stocks_df trading_days missing_dates w.
Proof. intros H. cbn [main_loop]. rewrite H. reflexivity. Qed.

Lemma main_loop_cons_present (symbol : string) (rest : list string)
    (raw : DataFrame) (w : World) :
  stocks_get symbol stocks_df = Some raw ->
  main_loop (symbol :: rest) stocks_df trading_days missing_dates w
  = (Raised AttributeError,
     mkWorld (now w) (stdout w ++ [PrintSymbol symbol]) (csv_files w)).
Proof.
  intros H. cbn [main_loop]. rewrite H. unfold bind at 1.
  rewrite main_symbol_raises. reflexivity.
Qed.

End Loop.

(** X8: when none of the symbols is a column of the download, the loop of
    lines 84-95 ends normally and has printed and written nothing. *)
Theorem main_loop_no_symbol :
  forall (syms : list string) (stocks_df : StocksFrame)
         (trading_days missing_dates : list Timestamp) (w : World),
    (forall s : string, In s syms -> stocks_get s stocks_df = None) ->
    main_loop syms stocks_df trading_days missing_dates w = (Returned tt, w).
Proof.
  intros syms stocks td md w. induction syms as [|s rest IH]; intros Habs.
  - reflexivity.
  - rewrite main_loop_cons_absent by (apply Habs; left; reflexivity).
    apply IH. intros x Hx. apply Habs. right. exact Hx.
Qed.

Lemma main_loop_no_symbol_witness :
  main_loop symbols [] [d_2020_01_02] [] w0 = (Returned tt, w0).
Proof.
  apply (main_loop_no_symbol symbols [] [d_2020_01_02] [] w0).
  intros s _. reflexivity.
Defined.

(** X9: the loop stops at the first symbol that is a column of the
    download: the symbols before it are passed over, its name is the only
    line printed, [df.index] raises [AttributeError], no CSV file is written
    and the symbols after it are never processed. *)
Theorem main_loop_first_symbol :
  forall (before after : list string) (symbol : string) (raw : DataFrame)
         (stocks_df : StocksFrame) (trading_days missing_dates : list Timestamp)
         (w : World),
    (forall s : string, In s before -> stocks_get s stocks_df = None) ->
    stocks_get symbol stocks_df = Some raw ->
    main_loop (before ++ symbol :: after) stocks_df trading_days missing_dates w
    = (Raised AttributeError,
       mkWorld (now w) (stdout w ++ [PrintSymbol symbol]) (csv_files w)).
Proof.
  intros before after symbol raw stocks td md w Habs Hin.
  induction before as [|s rest IH]; cbn [app].
  - exact (main_loop_cons_present stocks td md symbol after raw w Hin).
  - rewrite main_loop_cons_absent by (apply Habs; left; reflexivity).
    apply IH. intros x Hx. apply Habs. right. exact Hx.
Qed.

Lemma main_loop_first_symbol_witness :
  main_loop symbols [("NFLX"%string, [row_scenario]); ("SPY"%string, [row_adjust])]
            [d_2020_01_02; d_2020_01_03] [] w0
  = (Raised AttributeError, mkWorld 0 [PrintSymbol "NFLX"] []).
Proof.
  apply (main_loop_first_symbol ["AAPL"%string]
           ["NVDA"; "JPM"; "SPY"; "GC=F"; "SI=F"; "CL=F"; "ZW=F"; "PL=F";
            "ZC=F"; "ZS=F"; "KC=F"; "CC=F"; "^GDAXI"; "^GSPC"]%string
           "NFLX"%string [row_scenario]
           [("NFLX"%string, [row_scenario]); ("SPY"%string, [row_adjust])]
           [d_2020_01_02; d_2020_01_03] [] w0).
  - intros s [<-|[]]. reflexivity.
  - reflexivity.
Defined.

(** X10: whatever the symbols and the download, the loop writes no CSV file
    and prints at most one line, the name of one of its symbols; it ends
    normally only if it printed nothing. *)
Theorem main_loop_writes_nothing :
  forall (syms : list string) (stocks_df : StocksFrame)
         (trading_days missing_dates : list Timestamp) (w : World),
    csv_files (snd (main_loop syms stocks_df trading_days missing_dates w))
    = csv_files w
    /\ (main_loop syms stocks_df trading_days missing_dates w = (Returned tt, w)
        \/ exists s : string,
             In s syms
             /\ main_loop syms stocks_df trading_days missing_dates w
                = (Raised AttributeError,
                   mkWorld (now w) (stdout w ++ [PrintSymbol s]) (csv_files w))).
Proof.
  intros syms stocks td md w.
  assert (H : main_loop syms stocks td md w = (Returned tt, w)
              \/ exists s : string,
                   In s syms
                   /\ main_loop syms stocks td md w
                      = (Raised AttributeError,
                         mkWorld (now w) (stdout w ++ [PrintSymbol s]) (csv_files w))).
  { induction syms as [|s rest IH].
    - left. reflexivity.
    - destruct (stocks_get s stocks) as [raw|] eqn:Hs.
      + right. exists s. split; [left; reflexivity|].
        exact (main_loop_cons_present stocks td md s rest raw w Hs).
      + rewrite (main_loop_cons_absent stocks td md s rest w Hs).
        destruct IH as [IH|(x & Hx & IH)].
        * left. exact IH.
        * right. exists x. split; [right; exact Hx | exact IH]. }
  split; [|exact H].
  destruct H as [H|(s & _ & H)]; rewrite H; reflexivity.
Qed.
